(** * Jira-api-example/JiraApi.py: the paginated, retried Jira client

    A shallow embedding of [class JiraAPI] and the properties of its
    [authenticate], [get_auth_header], [request], [handle_response],
    [select] and [fetch] methods.

    Conventions of the embedding.
    - A Python [str] is represented by the [string] of its UTF-8 bytes, so
      [str.encode()] is the identity and [bytes.decode()] is a validity
      check that may raise [UnicodeDecodeError].
    - A coroutine is a function from the state of the outside world to a
      result and a new world.  A result is a returned value, a raised
      [Exception], or [SystemExit]; the latter is a [BaseException], so an
      [except Exception] clause does not catch it.
    - The network is the environment: the world holds a [server] that
      decides what the k-th outbound attempt yields, a response or a raised
      exception.  The calls into aiohttp and aiohttp_retry follow the
      signatures of these libraries; a call that does not fit the
      signature raises before anything is sent. *)

From Stdlib Require Import ZArith NArith List String Ascii Bool Lia DecimalString.
Import ListNotations.

Open Scope string_scope.
Open Scope Z_scope.

(* ------------------------------------------------------------------ *)
(** ** Python results: values, exceptions, process exit                *)
(* ------------------------------------------------------------------ *)

(** The subclasses of [Exception] that the client can meet. *)
Inductive exn : Type :=
| BinasciiError                    (* binascii.Error, a ValueError *)
| UnicodeDecodeError
| AttributeError
| TypeError
| ValueError
| UnboundLocalError (name : string)
| ClientError (detail : string)    (* aiohttp.ClientError: connection level *)
| ClientPayloadError               (* aiohttp.ClientError: body cannot be read *)
| ContentTypeError                 (* response.json(): wrong Content-Type *)
| JSONDecodeError                  (* response.json(): malformed body *)
| TimeoutError                     (* asyncio.TimeoutError, not a ClientError *)
| OtherException (name : string).

(** The argument of [sys.exit]. *)
Inductive exit_arg : Type :=
| ExitCode (n : Z)
| ExitMessage (s : string).

Inductive result (A : Type) : Type :=
| Ret (a : A)
| Raise (e : exn)
| Exit (c : exit_arg).
Arguments Ret {A} a.
Arguments Raise {A} e.
Arguments Exit {A} c.

(** [str(n)] for an [int]. *)
Definition str_of_int (n : Z) : string := NilEmpty.string_of_int (Z.to_int n).

(* ------------------------------------------------------------------ *)
(** ** The standard-library functions the client calls                 *)
(* ------------------------------------------------------------------ *)

Module Base64.

(** binascii's decoding table: the value of a base64 digit. *)
Definition table_a2b_base64 (c : ascii) : option N :=
  let n := N_of_ascii c in
  if ((65 <=? n) && (n <=? 90))%N then Some (n - 65)%N
  else if ((97 <=? n) && (n <=? 122))%N then Some (n - 71)%N
  else if ((48 <=? n) && (n <=? 57))%N then Some (n + 4)%N
  else if (n =? 43)%N then Some 62%N
  else if (n =? 47)%N then Some 63%N
  else None.

Definition emit (b : N) (rest : option string) : option string :=
  option_map (String (ascii_of_N (N.land b 255))) rest.

(** [binascii.a2b_base64] in its default, non-strict mode: characters
    outside the alphabet are skipped, a complete pad sequence ends the
    input, and leftover digits are an error ([None], binascii.Error).
    [quad_pos], [leftchar] and [pads] are the loop's variables. *)
Fixpoint a2b_base64 (s : string) (quad_pos leftchar pads : N) : option string :=
  match s with
  | EmptyString => if (quad_pos =? 0)%N then Some EmptyString else None
  | String c s' =>
      if Ascii.eqb c "="%char then
        if (2 <=? quad_pos)%N then
          if (4 <=? quad_pos + (pads + 1))%N then Some EmptyString
          else a2b_base64 s' quad_pos leftchar (pads + 1)%N
        else a2b_base64 s' quad_pos leftchar pads
      else
        match table_a2b_base64 c with
        | None => a2b_base64 s' quad_pos leftchar pads
        | Some this_ch =>
            match quad_pos with
            | 0%N => a2b_base64 s' 1%N this_ch 0%N
            | 1%N =>
                emit (N.lor (N.shiftl leftchar 2) (N.shiftr this_ch 4))
                     (a2b_base64 s' 2%N (N.land this_ch 15) 0%N)
            | 2%N =>
                emit (N.lor (N.shiftl leftchar 4) (N.shiftr this_ch 2))
                     (a2b_base64 s' 3%N (N.land this_ch 3) 0%N)
            | _ =>
                emit (N.lor (N.shiftl leftchar 6) this_ch)
                     (a2b_base64 s' 0%N 0%N 0%N)
            end
        end
  end.

(** [base64.b64decode(s)] with [validate=False]. *)
Definition b64decode (s : string) : result string :=
  match a2b_base64 s 0%N 0%N 0%N with
  | Some bs => Ret bs
  | None => Raise BinasciiError
  end.

(** binascii's encoding table. *)
Definition table_b2a_base64 (v : N) : ascii :=
  if (v <? 26)%N then ascii_of_N (v + 65)
  else if (v <? 52)%N then ascii_of_N (v + 71)
  else if (v <? 62)%N then ascii_of_N (v - 4)
  else if (v =? 62)%N then "+"%char
  else "/"%char.

(** [base64.b64encode(s)]: three bytes give four digits, the last group
    is padded with [=]. *)
Fixpoint b64encode (s : string) : string :=
  match s with
  | EmptyString => EmptyString
  | String a EmptyString =>
      let x := N_of_ascii a in
      String (table_b2a_base64 (N.shiftr x 2))
        (String (table_b2a_base64 (N.shiftl (N.land x 3) 4)) "==")
  | String a (String b EmptyString) =>
      let x := N_of_ascii a in
      let y := N_of_ascii b in
      String (table_b2a_base64 (N.shiftr x 2))
        (String (table_b2a_base64 (N.lor (N.shiftl (N.land x 3) 4) (N.shiftr y 4)))
           (String (table_b2a_base64 (N.shiftl (N.land y 15) 2)) "="))
  | String a (String b (String c rest)) =>
      let x := N_of_ascii a in
      let y := N_of_ascii b in
      let z := N_of_ascii c in
      String (table_b2a_base64 (N.shiftr x 2))
        (String (table_b2a_base64 (N.lor (N.shiftl (N.land x 3) 4) (N.shiftr y 4)))
           (String (table_b2a_base64 (N.lor (N.shiftl (N.land y 15) 2) (N.shiftr z 6)))
              (String (table_b2a_base64 (N.land z 63)) (b64encode rest))))
  end.

End Base64.

Module Utf8.

Definition between (lo hi : N) (c : ascii) : bool :=
  let n := N_of_ascii c in ((lo <=? n) && (n <=? hi))%N.

Definition cont (c : ascii) : bool := between 128 191 c.

(** The strict UTF-8 decoder accepts exactly the well-formed sequences:
    no overlong forms, no surrogates, nothing above U+10FFFF. *)
Fixpoint well_formed (s : string) : bool :=
  match s with
  | EmptyString => true
  | String a r1 =>
      if between 0 127 a then well_formed r1
      else
        match r1 with
        | EmptyString => false
        | String b r2 =>
            if between 194 223 a then cont b && well_formed r2
            else
              match r2 with
              | EmptyString => false
              | String c r3 =>
                  if between 224 239 a then
                    (if between 224 224 a then between 160 191 b
                     else if between 237 237 a then between 128 159 b
                     else cont b)
                    && cont c && well_formed r3
                  else
                    match r3 with
                    | EmptyString => false
                    | String d r4 =>
                        if between 240 244 a then
                          (if between 240 240 a then between 144 191 b
                           else if between 244 244 a then between 128 143 b
                           else cont b)
                          && cont c && cont d && well_formed r4
                        else false
                    end
              end
        end
  end.

(** [bytes.decode()]: UTF-8, errors='strict'. *)
Definition decode (bs : string) : result string :=
  if well_formed bs then Ret bs else Raise UnicodeDecodeError.

End Utf8.

Module UrllibParse.

(** [_ALWAYS_SAFE]: letters, digits and [_.-~]. *)
Definition always_safe (c : ascii) : bool :=
  let n := N_of_ascii c in
  (((65 <=? n) && (n <=? 90)) || ((97 <=? n) && (n <=? 122))
   || ((48 <=? n) && (n <=? 57))
   || (n =? 95) || (n =? 46) || (n =? 45) || (n =? 126))%N.

Fixpoint mem (c : ascii) (s : string) : bool :=
  match s with
  | EmptyString => false
  | String d s' => Ascii.eqb c d || mem c s'
  end.

Definition hex_digit (v : N) : ascii :=
  if (v <? 10)%N then ascii_of_N (v + 48) else ascii_of_N (v + 55).

(** ['%{:02X}'.format(b)] *)
Definition percent (c : ascii) : string :=
  let n := N_of_ascii c in
  String "%" (String (hex_digit (N.shiftr n 4))
                (String (hex_digit (N.land n 15)) EmptyString)).

(** The quoter: a byte that is always safe or listed in [safe] stands
    for itself, every other byte becomes [%XX]. *)
Definition quoter (safe : string) (c : ascii) : string :=
  if always_safe c || mem c safe then String c EmptyString else percent c.

(** [urllib.parse.quote(s, safe)] *)
Fixpoint quote (s safe : string) : string :=
  match s with
  | EmptyString => EmptyString
  | String c s' => quoter safe c ++ quote s' safe
  end.

End UrllibParse.

(* ------------------------------------------------------------------ *)
(** ** Data model                                                      *)
(* ------------------------------------------------------------------ *)

Set Warnings "-register-all".

(** A value as [json.loads] builds it.  A dict is an association list,
    looked up from the front. *)
Inductive json : Type :=
| JNull
| JBool (b : bool)
| JInt (n : Z)
| JFloat (literal : string)
| JStr (s : string)
| JList (items : list json)
| JDict (entries : list (string * json)).

(** What the client reads of an [aiohttp.ClientResponse].  [text] is
    [None] when reading the body raises.  [json_body] is what
    [response.json()] returns ([JNull] for an empty body); it is [None]
    when that call raises, and [json_error] is then the exception:
    ContentTypeError for a wrong Content-Type, JSONDecodeError for a
    malformed body. *)
Record Response : Type := mkResponse {
  status : Z;
  reason : string;
  real_url : string;
  text : option string;
  json_body : option json;
  json_error : exn
}.

Record Request : Type := mkRequest {
  method : string;
  url : string;
  params : list (string * Z);
  headers : list (string * string);
  data : option string
}.

(** What one HTTP attempt yields. *)
Inductive reply : Type :=
| Answer (r : Response)
| Failure (e : exn).

Inductive level : Type := DEBUG | INFO | SUCCESS | ERROR.

(** One constructor per logging call of the source, with the values that
    its f-string interpolates. *)
Inductive message : Type :=
| MsgCredentialsMissing
| MsgAuthSuccessful (st : Z)
| MsgAuthFailed (st : Z) (why : string)
| MsgAuthError (e : exn)
| MsgURL (u : string)
| MsgNoResponse
| MsgResourceNotFound (u : string)
| MsgErrorDuringRequest (st : Z) (why : string)
| MsgStatusCode (st : Z)
| MsgJqlMissing
| MsgFound (issues : json)
| MsgFetching (host pattern : string) (start : Z)
| MsgFetchStatus (u : string) (st : Z)
| MsgFetchError (u : string) (e : exn).

(** The outside world: the server decides the reply to the k-th attempt,
    [issued] lists the attempts made so far, oldest first. *)
Record World : Type := mkWorld {
  server : nat -> Request -> reply;
  issued : list Request;
  log : list (level * message)
}.

(** The dict [self.retry_options] of the constructor. *)
Record RetryOptions : Type := mkRetryOptions {
  opt_attempts : Z;
  opt_statuses : list Z;
  opt_exceptions : exn -> bool
}.

(** The policy that a retry client follows: how many attempts it makes,
    after which statuses and after which exceptions it tries again. *)
Record RetryPolicy : Type := mkRetryPolicy {
  policy_attempts : Z;
  policy_status : Z -> bool;
  policy_exception : exn -> bool
}.

(** The two kinds of session objects the client builds. *)
Inductive Session : Type :=
| ClientSession
| RetryClient (policy : RetryPolicy).

Record JiraAPI : Type := mkJiraAPI {
  jira_host : string;
  jira_username : string;
  jira_password : string;
  attempts : Z;
  max_results : Z
}.

(** [JiraAPI.__init__]: the page size is fixed at 20. *)
Definition init (host username password : string) (attempts : Z) : JiraAPI :=
  {| jira_host := host; jira_username := username; jira_password := password;
     attempts := attempts; max_results := 20 |}.

(** [isinstance(e, aiohttp.ClientError)] *)
Definition is_ClientError (e : exn) : bool :=
  match e with
  | ClientError _ | ClientPayloadError | ContentTypeError => true
  | _ => false
  end.

Definition retry_options (self : JiraAPI) : RetryOptions :=
  {| opt_attempts := attempts self;
     opt_statuses := [500; 502; 503; 504];
     opt_exceptions := is_ClientError |}.

(** [aiohttp_retry.ExponentialRetry()], the policy of a client that is
    given no [retry_options]: three attempts, a new one after a status of
    500 or more. *)
Definition ExponentialRetry : RetryPolicy :=
  {| policy_attempts := 3;
     policy_status := fun st => 500 <=? st;
     policy_exception := fun _ => false |}.

(** [aiohttp_retry.RetryClient(session, **kwargs)], as [authenticate] and
    [select] build their client.  The constructor reads its policy from
    the parameter [retry_options]; the keywords [attempts], [max_timeout],
    [statuses] and [exceptions] are none of its parameters and, with a
    session supplied, are dropped: the client keeps the default policy. *)
Definition new_RetryClient (kwargs : RetryOptions) : Session :=
  RetryClient ExponentialRetry.

(* ------------------------------------------------------------------ *)
(** ** Coroutines: state, exceptions and exit                          *)
(* ------------------------------------------------------------------ *)

Definition M (A : Type) : Type := World -> result A * World.

Definition ret {A} (a : A) : M A := fun w => (Ret a, w).

Definition bind {A B} (m : M A) (k : A -> M B) : M B :=
  fun w =>
    match m w with
    | (Ret a, w') => k a w'
    | (Raise e, w') => (Raise e, w')
    | (Exit c, w') => (Exit c, w')
    end.

Notation "x <- m ;; k" := (bind m (fun x => k))
  (at level 61, m at next level, right associativity).
Notation "m ;; k" := (bind m (fun _ => k))
  (at level 61, right associativity).

Definition raise {A} (e : exn) : M A := fun w => (Raise e, w).

(** [sys.exit(c)] *)
Definition sys_exit {A} (c : exit_arg) : M A := fun w => (Exit c, w).

Definition lift {A} (r : result A) : M A := fun w => (r, w).

Definition logger (l : level) (m : message) : M unit :=
  fun w => (Ret tt, {| server := server w; issued := issued w;
                       log := log w ++ [(l, m)] |}).

(** [try: body  except <caught> as e: handler e].  [SystemExit] is never
    caught. *)
Definition try_except {A} (body : M A) (caught : exn -> bool)
           (handler : exn -> M A) : M A :=
  fun w =>
    match body w with
    | (Raise e, w') => if caught e then handler e w' else (Raise e, w')
    | other => other
    end.

(** [except Exception] *)
Definition any_Exception (e : exn) : bool := true.

(** One HTTP attempt: the server answers it, the world records it. *)
Definition send (req : Request) : M reply :=
  fun w => (Ret (server w (List.length (issued w)) req),
            {| server := server w; issued := issued w ++ [req]; log := log w |}).

(* ------------------------------------------------------------------ *)
(** ** The sessions of aiohttp and aiohttp_retry                       *)
(* ------------------------------------------------------------------ *)

(** The retry client: an attempt whose status or exception the policy
    marks is repeated while attempts remain; the last attempt is handed on
    as it is. *)
Fixpoint retry_loop (policy : RetryPolicy) (retries_left : nat)
         (req : Request) : M Response :=
  r <- send req ;;
  match r, retries_left with
  | Answer resp, S k =>
      if policy_status policy (status resp)
      then retry_loop policy k req
      else ret resp
  | Answer resp, O => ret resp
  | Failure e, S k =>
      if policy_exception policy e then retry_loop policy k req else raise e
  | Failure e, O => raise e
  end.

(** [session.request(method=..., url=..., headers=..., params=...)], the
    call of [fetch]: a plain session makes one attempt, a retry client
    follows its policy; what an attempt yields, a response or an
    exception, is for the [server] of the world to say. *)
Definition session_request (session : Session) (req : Request) : M Response :=
  match session with
  | ClientSession =>
      r <- send req ;;
      match r with
      | Answer resp => ret resp
      | Failure e => raise e
      end
  | RetryClient policy =>
      retry_loop policy (Z.to_nat (policy_attempts policy) - 1) req
  end.

(** [session.requests(method, url, params, headers, data)], the call of
    [request], with its five positional arguments.  A plain
    [aiohttp.ClientSession] has no attribute [requests];
    [aiohttp_retry.RetryClient.requests] takes
    [(params_list, retry_options, raise_for_status)], so the call is a
    TypeError.  Either way it raises before anything is sent. *)
Definition session_requests (session : Session) (req : Request) : M Response :=
  match session with
  | ClientSession => raise AttributeError
  | RetryClient _ => raise TypeError
  end.

(** [response.ok] is [400 > status]; [response.raise_for_status()] raises
    [aiohttp.ClientResponseError] exactly when it is false. *)
Definition ok (resp : Response) : bool := status resp <? 400.

(* ------------------------------------------------------------------ *)
(** ** class JiraAPI                                                   *)
(* ------------------------------------------------------------------ *)

(** Truth value of a [str]: the empty string is false. *)
Definition truthy (s : string) : bool := negb (String.eqb s "").

(** [get_auth_header] *)
Definition get_auth_header (self : JiraAPI) : result string :=
  let user_pass := jira_username self ++ ":" ++ jira_password self in
  match Base64.b64decode user_pass with
  | Ret bs => Utf8.decode bs
  | Raise e => Raise e
  | Exit c => Exit c
  end.

(** What [handle_response] returns: its [error] dict when there is no
    response, the response object otherwise. *)
Inductive handled : Type :=
| ErrorDict (Result : option Z) (Raw_text : option string)
| TheResponse (resp : Response).

(** [await response.text()] *)
Definition read_text (resp : Response) : M string :=
  match text resp with
  | Some t => ret t
  | None => raise ClientPayloadError
  end.

(** [await response.json()] *)
Definition read_json (resp : Response) : M json :=
  match json_body resp with
  | Some j => ret j
  | None => raise (json_error resp)
  end.

(** [handle_response].  The local [error] is dead once a response is at
    hand: what [response.json()] yields or raises there is dropped. *)
Definition handle_response (response : option Response) : M handled :=
  match response with
  | None =>
      logger ERROR MsgNoResponse ;;
      ret (ErrorDict None None)
  | Some resp =>
      (if ok resp then
         (* raise_for_status() passes *)
         _ <- read_text resp ;;
         ret tt
       else
         (* raise_for_status() raises; except aiohttp.ClientResponseError: *)
         (if status resp =? 404 then
            logger ERROR (MsgResourceNotFound (real_url resp))
          else
            logger ERROR (MsgErrorDuringRequest (status resp) (reason resp)) ;;
            logger ERROR (MsgStatusCode (status resp))
            (* e.text() does not exist: the AttributeError is swallowed *)) ;;
         sys_exit (ExitCode 1)) ;;
      ret (TheResponse resp)
  end.

(** [request], called with its defaults for [data], [headers], [method]
    and [params], as both call sites do. *)
Definition request (self : JiraAPI) (session : Session) (pattern : string)
  : M handled :=
  let url := jira_host self ++ "/rest/api/2/" ++ pattern in
  logger INFO (MsgURL url) ;;
  auth <- lift (get_auth_header self) ;;
  let headers := [("Content-Type", "application/json");
                  ("Authorization", "Basic: " ++ auth)] in
  response <- session_requests session
                {| method := "GET"; url := url; params := [];
                   headers := headers; data := None |} ;;
  handle_response (Some response).

(** [response.status] / [response.reason] on what [request] returned: a
    dict has neither attribute. *)
Definition get_status (h : handled) : M Z :=
  match h with
  | TheResponse resp => ret (status resp)
  | ErrorDict _ _ => raise AttributeError
  end.

Definition get_reason (h : handled) : M string :=
  match h with
  | TheResponse resp => ret (reason resp)
  | ErrorDict _ _ => raise AttributeError
  end.

(** [authenticate] *)
Definition authenticate (self : JiraAPI) : M bool :=
  if negb (truthy (jira_username self)) || truthy (jira_password self) then
    logger ERROR MsgCredentialsMissing ;;
    ret false
  else
    try_except
      (let retry_client := new_RetryClient (retry_options self) in
       response <- request self retry_client "mypermissions" ;;
       st <- get_status response ;;
       if (200 <=? st) && (st <? 300) then
         logger SUCCESS (MsgAuthSuccessful st) ;;
         ret true
       else
         why <- get_reason response ;;
         logger ERROR (MsgAuthFailed st why) ;;
         ret false)
      any_Exception
      (fun e => logger ERROR (MsgAuthError e) ;; ret false).

(** [initialize] *)
Definition initialize (self : JiraAPI) : M unit :=
  ok <- authenticate self ;;
  if negb ok
  then sys_exit (ExitMessage "Authentication failed. Please check your credentials.")
  else ret tt.

(** [range(start, stop, step)] as a list; a zero step is a [ValueError]. *)
Definition range (start stop step : Z) : result (list Z) :=
  if step =? 0 then Raise ValueError
  else
    let count :=
      if 0 <? step then (stop - start + step - 1) / step
      else (start - stop - step - 1) / (- step) in
    Ret (map (fun k => start + Z.of_nat k * step) (seq 0 (Z.to_nat count))).

(** A JSON value used where an [int] is required: [bool] is a subclass of
    [int], everything else is a [TypeError]. *)
Definition as_int (j : json) : result Z :=
  match j with
  | JInt n => Ret n
  | JBool b => Ret (if b then 1 else 0)
  | _ => Raise TypeError
  end.

Fixpoint lookup (key : string) (entries : list (string * json)) : option json :=
  match entries with
  | [] => None
  | (k, v) :: rest => if String.eqb k key then Some v else lookup key rest
  end.

(** [data.get(key, default)]: only a dict has [get]. *)
Definition dict_get (d : json) (key : string) (default : json) : result json :=
  match d with
  | JDict entries =>
      match lookup key entries with
      | Some v => Ret v
      | None => Ret default
      end
  | _ => Raise AttributeError
  end.

(** [fetch].  When building the headers raises, the handler formats [url]
    before that local is bound. *)
Definition fetch (self : JiraAPI) (session : Session) (pattern : string)
           (start : Z) : M json :=
  logger DEBUG (MsgFetching (jira_host self) pattern start) ;;
  match get_auth_header self with
  | Ret auth =>
      let headers := [("Content-Type", "application/json");
                      ("Authorization", "Basic " ++ auth)] in
      let params := [("startAt", start)] in
      let url := jira_host self ++ "/rest/api/2/" ++ pattern in
      try_except
        (response <- session_request session
                       {| method := "GET"; url := url; params := params;
                          headers := headers; data := None |} ;;
         if status response =? 200 then
           read_json response
         else
           logger ERROR (MsgFetchStatus url (status response)) ;;
           ret (JList []))
        any_Exception
        (fun e => logger ERROR (MsgFetchError url e) ;; ret (JList []))
  | Raise _ => raise (UnboundLocalError "url")
  | Exit c => sys_exit c
  end.

(** [asyncio.gather] on the tasks: they start in list order, all of them
    run, and the first exception among them is raised once they are done;
    otherwise the results come back in list order. *)
Fixpoint gather {A} (tasks : list (M A)) : M (list A) :=
  match tasks with
  | [] => ret []
  | task :: rest =>
      fun w =>
        match task w with
        | (Ret a, w1) =>
            match gather rest w1 with
            | (Ret l, w2) => (Ret (a :: l), w2)
            | other => other
            end
        | (Raise e, w1) => (Raise e, snd (gather rest w1))
        | (Exit c, w1) => (Exit c, w1)
        end
  end.

(** The search pattern that [select] formats. *)
Definition search_pattern (self : JiraAPI) (jql expand fields : string) : string :=
  "search?jql=" ++ UrllibParse.quote jql "/?:=,&"
  ++ "&maxResults=" ++ str_of_int (max_results self)
  ++ "&expand=" ++ expand ++ "&fields=" ++ fields.

(** [select] from line 224 on: what it does with the response that
    [request] has handed back.  [results] is bound only in the branch of
    status 200; the [return] after it reads the local whatever the
    branch. *)
Definition select_pages (self : JiraAPI) (session : Session) (pattern : string)
           (response : handled) : M (list json) :=
  st <- get_status response ;;
  results <-
    (if st =? 200 then
       match response with
       | TheResponse resp =>
           data <- read_json resp ;;
           issues <- lift (dict_get data "total" (JInt 0)) ;;
           logger INFO (MsgFound issues) ;;
           stop <- lift (as_int issues) ;;
           starts <- lift (range 0 stop (max_results self)) ;;
           let tasks := map (fun start => fetch self session pattern start)
                            starts in
           results <- gather tasks ;;
           ret (Some results)
       | ErrorDict _ _ => raise AttributeError
       end
     else ret None) ;;
  match results with
  | Some l => ret l
  | None => raise (UnboundLocalError "results")
  end.

(** [select]: the validation of the query, the probe through [request],
    then the pages.  The pages get the plain [session], not the
    [retry_client]. *)
Definition select (self : JiraAPI) (jql : option string)
           (expand fields : string) : M (list json) :=
  match jql with
  | None | Some EmptyString =>
      logger ERROR MsgJqlMissing ;;
      sys_exit (ExitCode 1)
  | Some q =>
      let pattern := search_pattern self q expand fields in
      let session := ClientSession in
      let retry_client := new_RetryClient (retry_options self) in
      response <- request self retry_client pattern ;;
      select_pages self session pattern response
  end.

(** Running a coroutine in a world. *)
Definition outcome {A} (m : M A) (w : World) : result A := fst (m w).
Definition after {A} (m : M A) (w : World) : World := snd (m w).

(** A world in which nothing has been sent or logged yet. *)
Definition fresh (srv : nat -> Request -> reply) : World :=
  {| server := srv; issued := []; log := [] |}.

(* ------------------------------------------------------------------ *)
(** ** Vocabulary of the statements                                    *)
(* ------------------------------------------------------------------ *)

(** The request that [request] makes up for [pattern]: the method, URL,
    parameters, headers and data that it passes at line 150. *)
Definition probe_request (self : JiraAPI) (auth pattern : string) : Request :=
  {| method := "GET";
     url := jira_host self ++ "/rest/api/2/" ++ pattern;
     params := [];
     headers := [("Content-Type", "application/json");
                 ("Authorization", "Basic: " ++ auth)];
     data := None |}.

(** The request that [fetch] sends for the page at [start]. *)
Definition page_request (self : JiraAPI) (auth pattern : string) (start : Z)
  : Request :=
  {| method := "GET";
     url := jira_host self ++ "/rest/api/2/" ++ pattern;
     params := [("startAt", start)];
     headers := [("Content-Type", "application/json");
                 ("Authorization", "Basic " ++ auth)];
     data := None |}.


(** The entry of a page in the list that [select] returns. *)
Definition page_entry (r : reply) : json :=
  match r with
  | Answer resp =>
      if status resp =? 200 then
        match json_body resp with
        | Some body => body
        | None => JList []
        end
      else JList []
  | Failure _ => JList []
  end.

(** The entries of the pages whose requests are the attempts number [k],
    [k+1], ... *)
Fixpoint page_entries (srv : nat -> Request -> reply) (k : nat)
         (reqs : list Request) : list json :=
  match reqs with
  | [] => []
  | req :: rest => page_entry (srv k req) :: page_entries srv (S k) rest
  end.

(** The six characters that [select] passes as [safe]. *)
Definition structural : string := "/?:=,&".

(** Sample values: an account whose header can be computed, and replies. *)
Definition nick : JiraAPI := init "https://jira.example" "Nick" "" 3.

Definition response (st : Z) (why : string) (body : option json) : Response :=
  {| status := st; reason := why; real_url := "https://jira.example";
     text := Some ""; json_body := body; json_error := JSONDecodeError |}.

Definition answer (st : Z) (why : string) (body : option json) : reply :=
  Answer (response st why body).

(** A server that answers a request without parameters with a total of
    45 issues, and whose page at 20 is unavailable. *)
Definition srv_45 (k : nat) (req : Request) : reply :=
  match params req with
  | [] => answer 200 "OK" (Some (JDict [("total", JInt 45)]))
  | (_, start) :: _ =>
      if start =? 20 then answer 503 "Service Unavailable" None
      else answer 200 "OK" (Some (JDict [("startAt", JInt start)]))
  end.

(** The first attempt of all is answered by 503, every later one by a
    page. *)
Definition srv_flaky (k : nat) (req : Request) : reply :=
  if (k =? 0)%nat then answer 503 "Service Unavailable" None
  else answer 200 "OK" (Some (JDict [("issues", JList [])])).

Definition srv_status (st : Z) (why : string) (k : nat) (req : Request) : reply :=
  answer st why None.

(** A sample query and its search pattern. *)
Definition sample_jql : string := "project = X".

Definition sample_pattern : string :=
  search_pattern nick sample_jql "changelog" "*all".

(* ------------------------------------------------------------------ *)
(** ** Jira-api-example/main.py                                        *)
(* ------------------------------------------------------------------ *)

(** [fetch_jira]: the client is built with the three literals of the
    source and the defaults of the constructor; [select] gets its default
    [fields]. *)
Definition fetch_jira (jql : option string) (expand : string) : M (list json) :=
  let jira := init "jira_host" "jira_username" "jira_password" 3 in
  initialize jira ;;
  select jira jql expand "*all".

(** [main] *)
Definition main : M (list json) :=
  let jql := "..." in
  res <- fetch_jira (Some jql) "operations" ;;
  ret res.

(* ------------------------------------------------------------------ *)
(** ** Measures used in the statements                                 *)
(* ------------------------------------------------------------------ *)

(** The number of base64 digits of a string. *)
Fixpoint digits (s : string) : nat :=
  match s with
  | EmptyString => 0
  | String c s' =>
      match Base64.table_a2b_base64 c with
      | Some _ => S (digits s')
      | None => digits s'
      end
  end.

(** Whether a string is free of the pad character. *)
Fixpoint pad_free (s : string) : bool :=
  match s with
  | EmptyString => true
  | String c s' => negb (Ascii.eqb c "="%char) && pad_free s'
  end.

(** The value of an upper-case hexadecimal digit. *)
Definition hex_value (c : ascii) : N :=
  let n := N_of_ascii c in
  if (n <? 65)%N then (n - 48)%N else (n - 55)%N.

(** A world with one more log entry. *)
Definition logged (w : World) (l : level) (m : message) : World :=
  {| server := server w; issued := issued w; log := log w ++ [(l, m)] |}.

(** The characters of a string, as a list. *)
Fixpoint chars (s : string) : list ascii :=
  match s with
  | EmptyString => []
  | String c s' => c :: chars s'
  end.

(* ------------------------------------------------------------------ *)
(** ** The model at work                                               *)
(* ------------------------------------------------------------------ *)

(** Unfolds the plumbing of coroutines. *)
Ltac run :=
  unfold outcome, after, bind, ret, raise, lift, logger, sys_exit,
    try_except, send in *; simpl in *.

Example b64decode_abc : Base64.b64decode "YWJj:" = Ret "abc".
Proof. reflexivity. Qed.

Example b64decode_padding : Base64.b64decode "admin:secret" = Raise BinasciiError.
Proof. reflexivity. Qed.

Example b64encode_admin : Base64.b64encode "admin:secret" = "YWRtaW46c2VjcmV0".
Proof. reflexivity. Qed.

Example b64encode_pad1 : Base64.b64encode "YWJj:" = "WVdKajo=".
Proof. reflexivity. Qed.

Example quote_space : UrllibParse.quote "project = A&B/c d" "/?:=,&" = "project%20=%20A&B/c%20d".
Proof. reflexivity. Qed.

Example str_of_int_20 : str_of_int 20 = "20".
Proof. reflexivity. Qed.

Example select_raises_at_the_probe :
  select nick (Some sample_jql) "changelog" "*all" (fresh srv_45)
  = (Raise TypeError,
     logged (fresh srv_45) INFO
            (MsgURL ("https://jira.example/rest/api/2/" ++ sample_pattern))).
Proof. vm_compute. reflexivity. Qed.

Example select_pages_45 :
  outcome (select_pages nick ClientSession sample_pattern
             (TheResponse (response 200 "OK" (Some (JDict [("total", JInt 45)])))))
          (fresh srv_45)
  = Ret [JDict [("startAt", JInt 0)]; JList []; JDict [("startAt", JInt 40)]].
Proof. vm_compute. reflexivity. Qed.

Example select_pages_45_offsets :
  map params
      (issued (after (select_pages nick ClientSession sample_pattern
                        (TheResponse (response 200 "OK"
                                        (Some (JDict [("total", JInt 45)])))))
                     (fresh srv_45)))
  = [[("startAt", 0)]; [("startAt", 20)]; [("startAt", 40)]].
Proof. vm_compute. reflexivity. Qed.

(* ------------------------------------------------------------------ *)
(** ** Percent-encoding of the query                                   *)
(* ------------------------------------------------------------------ *)

Section Quote.

Import UrllibParse.

Lemma append_assoc' (a b c : string) : (a ++ b) ++ c = a ++ (b ++ c).
Proof. induction a as [|x a IH]; simpl; [reflexivity | now rewrite IH]. Qed.

Lemma quote_app (a b safe : string) :
  quote (a ++ b) safe = quote a safe ++ quote b safe.
Proof.
  induction a as [|x a IH]; simpl.
  - reflexivity.
  - rewrite IH. now rewrite append_assoc'.
Qed.

Lemma quote_char (a b safe : string) (c : ascii) :
  quote (a ++ String c b) safe = quote a safe ++ quoter safe c ++ quote b safe.
Proof. rewrite quote_app. reflexivity. Qed.

Lemma quoter_cases (safe : string) (c : ascii) :
  quoter safe c = String c EmptyString \/ quoter safe c = percent c.
Proof. unfold quoter. destruct (always_safe c || mem c safe); auto. Qed.

End Quote.

(** C7. Whatever the query, each of its bytes is quoted on its own when
    [select] builds the search pattern; the six characters / ? : = , &
    stand for themselves there, a byte that is neither one of them nor
    always safe becomes its percent escape, the space becoming %20. *)
Theorem select_quote_keeps_structural_characters :
  forall (self : JiraAPI) (before after_ expand fields : string) (c : ascii),
    search_pattern self (before ++ String c after_) expand fields
    = "search?jql=" ++ UrllibParse.quote before structural
      ++ (if UrllibParse.mem c structural || UrllibParse.always_safe c
          then String c EmptyString else UrllibParse.percent c)
      ++ UrllibParse.quote after_ structural
      ++ "&maxResults=" ++ str_of_int (max_results self)
      ++ "&expand=" ++ expand ++ "&fields=" ++ fields
    /\ Forall (fun s => UrllibParse.mem s structural = true)
              ["/"; "?"; ":"; "="; ","; "&"]%char
    /\ UrllibParse.mem " " structural || UrllibParse.always_safe " " = false
    /\ UrllibParse.percent " " = "%20".
Proof.
  intros self before after_ expand fields c.
  split; [| split; [| split]].
  - unfold search_pattern. rewrite quote_char.
    unfold UrllibParse.quoter. rewrite (orb_comm (UrllibParse.mem c structural)).
    fold structural. rewrite !append_assoc'. reflexivity.
  - repeat constructor.
  - reflexivity.
  - reflexivity.
Qed.

(* ------------------------------------------------------------------ *)
(** ** Query validation                                                *)
(* ------------------------------------------------------------------ *)

(** C6. A missing or empty query makes [select] log the error and exit
    with status 1; nothing is sent on that path. *)
Theorem select_empty_query_exits_before_any_request :
  forall (self : JiraAPI) (expand fields : string) (w : World),
    (outcome (select self None expand fields) w = Exit (ExitCode 1)
     /\ issued (after (select self None expand fields) w) = issued w)
    /\ (outcome (select self (Some "") expand fields) w = Exit (ExitCode 1)
        /\ issued (after (select self (Some "") expand fields) w) = issued w).
Proof. intros self expand fields w. repeat split. Qed.

(* ------------------------------------------------------------------ *)
(** ** The Basic authentication header                                 *)
(* ------------------------------------------------------------------ *)

(** C5. The header value is computed by decoding, not encoding: for the
    pair admin / secret the call raises binascii.Error, where the base64
    encoding of "admin:secret" is YWRtaW46c2VjcmV0; for Nick with an empty
    password it returns the three bytes that "Nick" decodes to, where the
    base64 encoding of "Nick:" is Tmljazo=. *)
Theorem get_auth_header_decodes_instead_of_encoding :
  get_auth_header (init "https://jira.example" "admin" "secret" 3)
  = Raise BinasciiError
  /\ Base64.b64encode "admin:secret" = "YWRtaW46c2VjcmV0"
  /\ get_auth_header nick = Ret "6'$"
  /\ Base64.b64encode "Nick:" = "Tmljazo=".
Proof. repeat split. Qed.

(* ------------------------------------------------------------------ *)
(** ** Response handling                                               *)
(* ------------------------------------------------------------------ *)


Lemma handle_response_rejects (resp : Response) (w : World) :
  400 <= status resp ->
  handle_response (Some resp) w =
  (Exit (ExitCode 1),
   {| server := server w; issued := issued w;
      log := log w ++
             (if status resp =? 404
              then [(ERROR, MsgResourceNotFound (real_url resp))]
              else [(ERROR, MsgErrorDuringRequest (status resp) (reason resp));
                    (ERROR, MsgStatusCode (status resp))]) |}).
Proof.
  intros Hst. unfold handle_response, ok.
  assert (Hlt : (status resp <? 400) = false) by (apply Z.ltb_ge; lia).
  rewrite Hlt. destruct (status resp =? 404); run.
  - reflexivity.
  - now rewrite <- app_assoc.
Qed.

(** C8, as amended. A response whose status is 400 or more makes
    [handle_response] log the error, a 404 as resource not found with the
    URL and any other status with its code and reason, and then exit with
    status 1 instead of returning to the caller; nothing is sent. *)
Theorem handle_response_exits_from_400 :
  forall (resp : Response) (w : World),
    400 <= status resp ->
    outcome (handle_response (Some resp)) w = Exit (ExitCode 1)
    /\ issued (after (handle_response (Some resp)) w) = issued w
    /\ log (after (handle_response (Some resp)) w)
       = (log w ++
          (if status resp =? 404
           then [(ERROR, MsgResourceNotFound (real_url resp))]
           else [(ERROR, MsgErrorDuringRequest (status resp) (reason resp));
                 (ERROR, MsgStatusCode (status resp))]))%list.
Proof.
  intros resp w Hst. unfold outcome, after.
  rewrite (handle_response_rejects resp w Hst). simpl. auto.
Qed.

(** C8, as stated, fails: a 304 is not a 2xx status, and [handle_response]
    hands the response back without logging or exiting. *)
Lemma handle_response_304_does_not_exit :
  let resp := response 304 "Not Modified" None in
  let w := fresh (srv_status 304 "Not Modified") in
  ~ (200 <= status resp < 300)
  /\ outcome (handle_response (Some resp)) w = Ret (TheResponse resp)
  /\ outcome (handle_response (Some resp)) w <> Exit (ExitCode 1)
  /\ log (after (handle_response (Some resp)) w) = [].
Proof.
  cbv zeta. repeat split.
  - simpl. lia.
  - discriminate.
Qed.

(* ------------------------------------------------------------------ *)
(** ** The probe                                                       *)
(* ------------------------------------------------------------------ *)

(** Computing the header returns or raises; it does not end the process. *)
Lemma get_auth_header_no_exit (self : JiraAPI) (c : exit_arg) :
  get_auth_header self <> Exit c.
Proof.
  unfold get_auth_header, Base64.b64decode, Utf8.decode.
  destruct (Base64.a2b_base64 _ _ _ _) as [bs |]; [| discriminate].
  destruct (Utf8.well_formed bs); discriminate.
Qed.

(** [request] logs the URL, computes the header and raises: the header's
    exception when there is one, otherwise the exception of the call of
    line 150.  Nothing is sent and [handle_response] is not reached. *)
Lemma request_eq (self : JiraAPI) (session : Session) (pattern : string)
      (w : World) :
  request self session pattern w
  = (Raise match get_auth_header self with
           | Raise e => e
           | _ => match session with
                  | ClientSession => AttributeError
                  | RetryClient _ => TypeError
                  end
           end,
     logged w INFO (MsgURL (jira_host self ++ "/rest/api/2/" ++ pattern))).
Proof.
  unfold request. cbv zeta. unfold bind at 1. unfold logger at 1.
  fold (logged w INFO (MsgURL (jira_host self ++ "/rest/api/2/" ++ pattern))).
  unfold bind at 1. unfold lift at 1.
  destruct (get_auth_header self) as [auth | e | c] eqn:Hh.
  - unfold bind at 1. destruct session; reflexivity.
  - reflexivity.
  - exfalso. exact (get_auth_header_no_exit self c Hh).
Qed.

(** [authenticate] past its guard: the exception of [request] is caught
    and logged, and false is returned. *)
Lemma authenticate_run (self : JiraAPI) (w : World) :
  jira_username self <> "" ->
  jira_password self = "" ->
  authenticate self w
  = (Ret false,
     logged (logged w INFO (MsgURL (jira_host self ++ "/rest/api/2/mypermissions")))
            ERROR
            (MsgAuthError match get_auth_header self with
                          | Raise e => e
                          | _ => TypeError
                          end)).
Proof.
  intros Hu Hp. unfold authenticate, truthy.
  rewrite Hp. apply String.eqb_neq in Hu. rewrite Hu.
  cbn [negb orb String.eqb].
  unfold try_except, new_RetryClient. unfold bind at 1.
  rewrite request_eq. reflexivity.
Qed.

Lemma authenticate_guarded (self : JiraAPI) (w : World) :
  jira_username self = "" \/ jira_password self <> "" ->
  authenticate self w = (Ret false, logged w ERROR MsgCredentialsMissing).
Proof.
  intros H. unfold authenticate, truthy.
  assert (E : negb (negb (jira_username self =? "")%string)
              || negb (jira_password self =? "")%string = true).
  { destruct H as [H | H].
    - rewrite H. reflexivity.
    - apply String.eqb_neq in H. rewrite H. apply orb_true_r. }
  rewrite E. reflexivity.
Qed.

Lemma guard_cases (self : JiraAPI) :
  (jira_username self = "" \/ jira_password self <> "")
  \/ (jira_username self <> "" /\ jira_password self = "").
Proof.
  destruct (string_dec (jira_username self) "") as [Hu | Hu]; auto.
  destruct (string_dec (jira_password self) "") as [Hp | Hp]; auto.
Qed.

(** C1 fails on the code.  [authenticate] never returns true: for every
    account, in every world, it returns false and sends nothing.  The
    account Nick with an empty password passes the guard and has a header,
    and the server would answer its probe with 200; the call of line 150
    raises TypeError before the probe is sent, the handler logs it and
    false is returned.  The same account with the password "secret" is
    turned down by the guard of line 77. *)
Theorem authenticate_never_returns_true :
  (forall (self : JiraAPI) (w : World),
      outcome (authenticate self) w = Ret false
      /\ issued (after (authenticate self) w) = issued w)
  /\ get_auth_header nick = Ret "6'$"
  /\ srv_status 200 "OK" 0%nat (probe_request nick "6'$" "mypermissions")
     = answer 200 "OK" None
  /\ authenticate nick (fresh (srv_status 200 "OK"))
     = (Ret false,
        {| server := srv_status 200 "OK";
           issued := [];
           log := [(INFO, MsgURL "https://jira.example/rest/api/2/mypermissions");
                   (ERROR, MsgAuthError TypeError)] |})
  /\ authenticate (init "https://jira.example" "Nick" "secret" 3)
                  (fresh (srv_status 200 "OK"))
     = (Ret false,
        {| server := srv_status 200 "OK";
           issued := [];
           log := [(ERROR, MsgCredentialsMissing)] |}).
Proof.
  split; [| repeat split].
  intros self w. unfold outcome, after.
  destruct (guard_cases self) as [Hg | [Hu Hp]].
  - rewrite (authenticate_guarded self w Hg). split; reflexivity.
  - rewrite (authenticate_run self w Hu Hp). split; reflexivity.
Qed.

(** X3. An account without a username, or with a password of any kind, is
    turned down by [authenticate] before anything is sent: it returns
    false and logs that credentials are missing. *)
Theorem authenticate_guard_sends_nothing :
  forall (self : JiraAPI) (w : World),
    jira_username self = "" \/ jira_password self <> "" ->
    outcome (authenticate self) w = Ret false
    /\ issued (after (authenticate self) w) = issued w
    /\ log (after (authenticate self) w)
       = (log w ++ [(ERROR, MsgCredentialsMissing)])%list.
Proof.
  intros self w Hg. unfold outcome, after.
  rewrite (authenticate_guarded self w Hg). cbn [fst snd logged issued log].
  auto.
Qed.

(** [initialize] for every account: [authenticate] has returned false. *)
Lemma initialize_run (self : JiraAPI) (w : World) :
  exists lg,
    initialize self w
    = (Exit (ExitMessage "Authentication failed. Please check your credentials."),
       {| server := server w; issued := issued w; log := lg |}).
Proof.
  unfold initialize. unfold bind at 1.
  destruct (guard_cases self) as [Hg | [Hu Hp]].
  - rewrite (authenticate_guarded self w Hg). eexists. reflexivity.
  - rewrite (authenticate_run self w Hu Hp). eexists. reflexivity.
Qed.

(** X19. [initialize] ends the process with the authentication message
    for every account and every server, and sends nothing: no client
    gets past it. *)
Theorem initialize_always_exits :
  forall (self : JiraAPI) (w : World),
    outcome (initialize self) w
    = Exit (ExitMessage "Authentication failed. Please check your credentials.")
    /\ issued (after (initialize self) w) = issued w
    /\ server (after (initialize self) w) = server w.
Proof.
  intros self w. unfold outcome, after.
  destruct (initialize_run self w) as [lg E]. rewrite E.
  repeat split.
Qed.

(** [initialize] on an account that the guard turns down. *)
Lemma initialize_guarded (self : JiraAPI) (w : World) :
  jira_username self = "" \/ jira_password self <> "" ->
  initialize self w
  = (Exit (ExitMessage "Authentication failed. Please check your credentials."),
     logged w ERROR MsgCredentialsMissing).
Proof.
  intros Hg. unfold initialize. unfold bind at 1.
  rewrite (authenticate_guarded self w Hg). reflexivity.
Qed.

(** X5. [fetch_jira] and [main] of main.py never reach [select]: the
    client they build carries a password, so whatever the query and the
    server, the process exits with the authentication message and nothing
    is sent. *)
Theorem fetch_jira_always_exits :
  forall (jql : option string) (expand : string) (w : World),
    (outcome (fetch_jira jql expand) w
     = Exit (ExitMessage "Authentication failed. Please check your credentials.")
     /\ issued (after (fetch_jira jql expand) w) = issued w)
    /\ (outcome main w
        = Exit (ExitMessage "Authentication failed. Please check your credentials.")
        /\ issued (after main w) = issued w).
Proof.
  intros jql expand w.
  assert (Hg : jira_username (init "jira_host" "jira_username" "jira_password" 3) = ""
               \/ jira_password (init "jira_host" "jira_username" "jira_password" 3) <> "")
    by (right; discriminate).
  assert (F : forall j e,
             fetch_jira j e w
             = (Exit (ExitMessage "Authentication failed. Please check your credentials."),
                logged w ERROR MsgCredentialsMissing)).
  { intros j e. unfold fetch_jira. cbv zeta. unfold bind at 1.
    rewrite (initialize_guarded _ w Hg). reflexivity. }
  split.
  - unfold outcome, after. rewrite F. auto.
  - unfold outcome, after, main. cbv zeta. unfold bind at 1. rewrite F. auto.
Qed.

(* ------------------------------------------------------------------ *)
(** ** The probe of select                                             *)
(* ------------------------------------------------------------------ *)

(** [select] has no handler around its probe: it raises what [request]
    raises. *)
Lemma select_run (self : JiraAPI) (q expand fields : string) (w : World) :
  q <> "" ->
  select self (Some q) expand fields w
  = (Raise match get_auth_header self with
           | Raise e => e
           | _ => TypeError
           end,
     logged w INFO
            (MsgURL (jira_host self ++ "/rest/api/2/"
                     ++ search_pattern self q expand fields))).
Proof.
  intros Hq. destruct q as [| c q']; [congruence |].
  unfold select, new_RetryClient. cbv zeta. unfold bind at 1.
  rewrite request_eq. reflexivity.
Qed.

(** X20. For every non-empty query [select] raises and returns no list:
    the exception of [get_auth_header] when the header cannot be
    computed, otherwise the TypeError of the call of line 150.  It sends
    nothing, neither the probe nor a page, and logs the URL only. *)
Theorem select_raises_before_sending :
  forall (self : JiraAPI) (q expand fields : string) (w : World),
    q <> "" ->
    outcome (select self (Some q) expand fields) w
    = Raise match get_auth_header self with
            | Raise e => e
            | _ => TypeError
            end
    /\ issued (after (select self (Some q) expand fields) w) = issued w
    /\ log (after (select self (Some q) expand fields) w)
       = (log w
          ++ [(INFO, MsgURL (jira_host self ++ "/rest/api/2/"
                             ++ search_pattern self q expand fields))])%list.
Proof.
  intros self q expand fields w Hq. unfold outcome, after.
  rewrite (select_run self q expand fields w Hq).
  repeat split.
Qed.

(* ------------------------------------------------------------------ *)
(** ** Credentials whose header cannot be computed                     *)
(* ------------------------------------------------------------------ *)

(** X9. When [get_auth_header] raises, nothing reaches the network:
    [select] raises the same exception, [authenticate] returns false,
    and neither sends a request. *)
Theorem header_failure_sends_nothing :
  forall (self : JiraAPI) (e : exn) (q expand fields : string) (w : World),
    get_auth_header self = Raise e ->
    q <> "" ->
    (outcome (select self (Some q) expand fields) w = Raise e
     /\ issued (after (select self (Some q) expand fields) w) = issued w)
    /\ (outcome (authenticate self) w = Ret false
        /\ issued (after (authenticate self) w) = issued w).
Proof.
  intros self e q expand fields w Hh Hq. split.
  - unfold outcome, after.
    rewrite (select_run self q expand fields w Hq), Hh.
    cbn [fst snd logged issued]. auto.
  - unfold outcome, after.
    destruct (guard_cases self) as [Hg | [Hu Hp]].
    + rewrite (authenticate_guarded self w Hg). cbn [fst snd logged issued]. auto.
    + rewrite (authenticate_run self w Hu Hp).
      cbn [fst snd logged issued]. auto.
Qed.

(* ------------------------------------------------------------------ *)
(** ** Pages                                                           *)
(* ------------------------------------------------------------------ *)

Section Pages.

Variable self : JiraAPI.
Variable auth : string.
Hypothesis header : get_auth_header self = Ret auth.

(** On a plain session [fetch] makes one attempt and returns the entry
    of its reply, whatever the reply is. *)
Lemma fetch_plain_session (pattern : string) (start : Z) (w : World) :
  exists lg,
    fetch self ClientSession pattern start w =
    (Ret (page_entry (server w (List.length (issued w))
                             (page_request self auth pattern start))),
     {| server := server w;
        issued := issued w ++ [page_request self auth pattern start];
        log := lg |}).
Proof.
  unfold fetch. rewrite header. unfold session_request. run.
  fold (page_request self auth pattern start).
  destruct (server w _ _) as [resp | e]; simpl.
  - destruct (status resp =? 200); simpl.
    + unfold read_json. destruct (json_body resp); simpl; eexists; reflexivity.
    + eexists; reflexivity.
  - eexists; reflexivity.
Qed.

(** The pages gathered on a plain session: one attempt each, in the order
    of the offsets, and one entry each. *)
Lemma gather_fetch (pattern : string) (starts : list Z) :
  forall w : World,
  exists lg,
    gather (map (fun start => fetch self ClientSession pattern start) starts) w =
    (Ret (page_entries (server w) (List.length (issued w))
                       (map (page_request self auth pattern) starts)),
     {| server := server w;
        issued := issued w ++ map (page_request self auth pattern) starts;
        log := lg |}).
Proof.
  induction starts as [| start rest IH]; intros w; simpl.
  - exists (log w). unfold ret. rewrite app_nil_r. now destruct w.
  - destruct (fetch_plain_session pattern start w) as [lg1 E1].
    rewrite E1.
    set (w1 := {| server := server w;
                  issued := issued w ++ [page_request self auth pattern start];
                  log := lg1 |}).
    destruct (IH w1) as [lg2 E2]. rewrite E2. exists lg2.
    subst w1; simpl. rewrite length_app, <- app_assoc. simpl.
    now rewrite Nat.add_1_r.
Qed.


(** What line 224 onwards does with a response of status 200 whose body
    tells the total. *)
Lemma select_pages_run (pattern : string) (w : World) (resp : Response)
      (body issues : json) (total : Z) (starts : list Z) :
  status resp = 200 ->
  json_body resp = Some body ->
  dict_get body "total" (JInt 0) = Ret issues ->
  as_int issues = Ret total ->
  range 0 total (max_results self) = Ret starts ->
  exists lg,
    select_pages self ClientSession pattern (TheResponse resp) w =
    (Ret (page_entries (server w) (List.length (issued w))
                       (map (page_request self auth pattern) starts)),
     {| server := server w;
        issued := issued w ++ map (page_request self auth pattern) starts;
        log := lg |}).
Proof.
  intros Hst Hbody Hget Hint Hrange.
  unfold select_pages, get_status. unfold bind at 1. unfold ret at 1.
  rewrite Hst. simpl (200 =? 200). cbv iota.
  unfold read_json. rewrite Hbody.
  unfold bind, ret, lift, logger. rewrite Hget, Hint, Hrange. simpl.
  set (w2 := {| server := server w; issued := issued w;
                log := log w ++ [(INFO, MsgFound issues)] |}).
  destruct (gather_fetch pattern starts w2) as [lg E].
  rewrite E. exists lg. reflexivity.
Qed.

End Pages.





(** The default of [data.get("total", 0)]. *)
Lemma dict_get_absent (entries : list (string * json)) :
  lookup "total" entries = None ->
  dict_get (JDict entries) "total" (JInt 0) = Ret (JInt 0).
Proof. intros H. unfold dict_get. now rewrite H. Qed.



(** C2 fails on the code.  [select] hands the plain session, not the
    retry client, to [fetch] (line 231), and on it [fetch] makes at most
    one attempt whatever the reply.  On a server that answers the first
    attempt with 503 and every later one with 200, the page at offset 0 is
    requested once and its entry is the empty list, though a second
    attempt would have been answered with the page; so it is in the page
    stage of [select] for a total of 1.  [select] itself raises before the
    probe is sent, so the probe is not retried either. *)
Theorem fetch_on_plain_session_is_not_retried :
  (forall (self : JiraAPI) (pattern : string) (start : Z) (w : World),
      (List.length (issued (after (fetch self ClientSession pattern start) w))
       <= S (List.length (issued w)))%nat)
  /\ (outcome (fetch nick ClientSession sample_pattern 0) (fresh srv_flaky)
      = Ret (JList [])
      /\ issued (after (fetch nick ClientSession sample_pattern 0) (fresh srv_flaky))
         = [page_request nick "6'$" sample_pattern 0]
      /\ srv_flaky 1%nat (page_request nick "6'$" sample_pattern 0)
         = answer 200 "OK" (Some (JDict [("issues", JList [])])))
  /\ (outcome (select_pages nick ClientSession sample_pattern
                 (TheResponse (response 200 "OK" (Some (JDict [("total", JInt 1)])))))
              (fresh srv_flaky)
      = Ret [JList []]
      /\ issued (after (select_pages nick ClientSession sample_pattern
                          (TheResponse (response 200 "OK"
                                          (Some (JDict [("total", JInt 1)])))))
                       (fresh srv_flaky))
         = [page_request nick "6'$" sample_pattern 0])
  /\ (outcome (select nick (Some sample_jql) "changelog" "*all") (fresh srv_flaky)
      = Raise TypeError
      /\ issued (after (select nick (Some sample_jql) "changelog" "*all")
                       (fresh srv_flaky))
         = []).
Proof.
  split; [| split; [| split]].
  - intros self pattern start w.
    destruct (get_auth_header self) as [auth | e | c] eqn:Hh.
    + destruct (fetch_plain_session self auth Hh pattern start w) as [lg E].
      unfold after. rewrite E. cbn [snd issued].
      rewrite length_app. cbn [List.length]. lia.
    + unfold after, fetch. rewrite Hh.
      unfold bind, logger, raise. cbn [snd issued]. lia.
    + exfalso. exact (get_auth_header_no_exit self c Hh).
  - repeat split.
  - split; vm_compute; reflexivity.
  - split; vm_compute; reflexivity.
Qed.






(* ------------------------------------------------------------------ *)
(** ** fetch on every session                                          *)
(* ------------------------------------------------------------------ *)

(** Whatever the server does and whatever its policy, a retry client
    makes between one and [retries_left + 1] attempts, all with the same
    request, touches neither the server nor the log, never exits, and
    hands on the reply to its last attempt. *)
Lemma retry_loop_inv (policy : RetryPolicy) (req : Request) :
  forall (n : nat) (w w' : World) (r : result Response),
    retry_loop policy n req w = (r, w') ->
    server w' = server w
    /\ log w' = log w
    /\ exists m : nat,
        (1 <= m <= S n)%nat
        /\ issued w' = (issued w ++ repeat req m)%list
        /\ match r with
           | Ret resp =>
               server w (List.length (issued w) + m - 1)%nat req = Answer resp
           | Raise e =>
               server w (List.length (issued w) + m - 1)%nat req = Failure e
           | Exit _ => False
           end.
Proof.
  induction n as [| n IH]; intros w w' r H;
    cbn [retry_loop] in H; unfold bind, send in H;
    destruct (server w (List.length (issued w)) req) as [resp | e] eqn:E.
  - unfold ret in H. injection H as <- <-. cbn [server log issued].
    repeat split. exists 1%nat. repeat split; try lia.
    now replace (List.length (issued w) + 1 - 1)%nat with (List.length (issued w)) by lia.
  - unfold raise in H. injection H as <- <-. cbn [server log issued].
    repeat split. exists 1%nat. repeat split; try lia.
    now replace (List.length (issued w) + 1 - 1)%nat with (List.length (issued w)) by lia.
  - destruct (policy_status policy (status resp)).
    + apply IH in H. cbn [server log issued] in H.
      destruct H as (Hs & Hl & m & Hm & Hi & Hr).
      repeat split; auto. exists (S m). repeat split; try lia.
      * rewrite Hi, <- app_assoc. reflexivity.
      * rewrite length_app in Hr. cbn [List.length] in Hr.
        replace (List.length (issued w) + S m - 1)%nat
          with (List.length (issued w) + 1 + m - 1)%nat by lia.
        exact Hr.
    + unfold ret in H. injection H as <- <-. cbn [server log issued].
      repeat split. exists 1%nat. repeat split; try lia.
      now replace (List.length (issued w) + 1 - 1)%nat with (List.length (issued w)) by lia.
  - destruct (policy_exception policy e).
    + apply IH in H. cbn [server log issued] in H.
      destruct H as (Hs & Hl & m & Hm & Hi & Hr).
      repeat split; auto. exists (S m). repeat split; try lia.
      * rewrite Hi, <- app_assoc. reflexivity.
      * rewrite length_app in Hr. cbn [List.length] in Hr.
        replace (List.length (issued w) + S m - 1)%nat
          with (List.length (issued w) + 1 + m - 1)%nat by lia.
        exact Hr.
    + unfold raise in H. injection H as <- <-. cbn [server log issued].
      repeat split. exists 1%nat. repeat split; try lia.
      now replace (List.length (issued w) + 1 - 1)%nat with (List.length (issued w)) by lia.
Qed.

(** X10. When [get_auth_header] raises inside [fetch], the handler of
    [fetch] formats [url] before it is bound: whatever the session,
    [fetch] raises UnboundLocalError instead of returning the empty list,
    and sends nothing. *)
Theorem fetch_header_failure_raises_unbound_url :
  forall (self : JiraAPI) (e : exn) (session : Session) (pattern : string)
         (start : Z) (w : World),
    get_auth_header self = Raise e ->
    outcome (fetch self session pattern start) w = Raise (UnboundLocalError "url")
    /\ issued (after (fetch self session pattern start) w) = issued w.
Proof.
  intros self e session pattern start w Hh.
  unfold outcome, after, fetch. rewrite Hh.
  unfold bind, logger, raise. cbn [fst snd issued]. auto.
Qed.

(** A session hands on a response or an exception, never an exit, and
    sends at least one request. *)
Lemma session_request_inv (session : Session) (req : Request) (w w' : World)
      (r : result Response) :
  session_request session req w = (r, w') ->
  (forall c : exit_arg, r <> Exit c)
  /\ exists m : nat, (1 <= m)%nat /\ issued w' = (issued w ++ repeat req m)%list.
Proof.
  destruct session as [| options]; unfold session_request; intros H.
  - unfold bind, send in H.
    destruct (server w (List.length (issued w)) req); unfold ret, raise in H;
      injection H as <- <-; (split; [discriminate |]);
      exists 1%nat; cbn [issued repeat]; auto.
  - apply retry_loop_inv in H. destruct H as (_ & _ & m & Hm & Hi & Hr).
    split.
    + intros c ->. exact Hr.
    + exists m. split; [lia | exact Hi].
Qed.

(** X11. When the header can be computed, [fetch] absorbs whatever its
    request does: on a plain session or on the retry client, against any
    server, it returns a value, never raises and never exits, after at
    least one attempt at the page. *)
Theorem fetch_always_returns :
  forall (self : JiraAPI) (auth : string) (session : Session) (pattern : string)
         (start : Z) (w : World),
    get_auth_header self = Ret auth ->
    exists (page : json) (m : nat),
      outcome (fetch self session pattern start) w = Ret page
      /\ (1 <= m)%nat
      /\ issued (after (fetch self session pattern start) w)
         = (issued w ++ repeat (page_request self auth pattern start) m)%list.
Proof.
  intros self auth session pattern start w Hh.
  assert (F : exists (page : json) (m : nat) (w' : World),
             fetch self session pattern start w = (Ret page, w')
             /\ (1 <= m)%nat
             /\ issued w'
                = (issued w ++ repeat (page_request self auth pattern start) m)%list).
  { unfold fetch. rewrite Hh.
    unfold bind at 1. unfold logger at 1. unfold try_except.
    fold (page_request self auth pattern start). unfold bind at 1.
    match goal with |- context [session_request session ?req ?w0] =>
      destruct (session_request session req w0) as [r w1] eqn:E end.
    destruct (session_request_inv _ _ _ _ _ E) as (Hne & m & Hm & Hi).
    cbn [issued] in Hi.
    destruct r as [resp | e | c].
    - destruct (status resp =? 200).
      + unfold read_json. destruct (json_body resp) as [body |].
        * exists body, m, w1. unfold ret. auto.
        * exists (JList []), m. eexists.
          unfold raise, any_Exception, bind, logger, ret.
          split; [reflexivity |]. cbn [issued]. auto.
      + exists (JList []), m. eexists. unfold bind, logger, ret.
        split; [reflexivity |]. cbn [issued]. auto.
    - exists (JList []), m. eexists. unfold any_Exception, bind, logger, ret.
      split; [reflexivity |]. cbn [issued]. auto.
    - exfalso. exact (Hne c eq_refl). }
  destruct F as (page & m & w' & E & Hm & Hi).
  exists page, m. unfold outcome, after. rewrite E. cbn [fst snd]. auto.
Qed.


(* ------------------------------------------------------------------ *)
(** ** What get_auth_header makes of the credentials                   *)
(* ------------------------------------------------------------------ *)

(** The decoder skips the colon that joins username and password. *)
Lemma a2b_base64_skips_colon (a b : string) :
  forall quad_pos leftchar pads : N,
    Base64.a2b_base64 (a ++ ":" ++ b) quad_pos leftchar pads
    = Base64.a2b_base64 (a ++ b) quad_pos leftchar pads.
Proof.
  induction a as [| c a IH]; intros quad_pos leftchar pads.
  - reflexivity.
  - cbn [append Base64.a2b_base64].
    destruct (Ascii.eqb c "="%char).
    + destruct (2 <=? quad_pos)%N; [| apply IH].
      destruct (4 <=? quad_pos + (pads + 1))%N; [reflexivity | apply IH].
    + destruct (Base64.table_a2b_base64 c) as [v |]; [| apply IH].
      destruct quad_pos as [| [p | p |]]; try destruct p;
        rewrite ?IH; reflexivity.
Qed.

(** X12. The header does not tell where the username ends: two accounts
    whose username and password concatenate to the same text get the same
    result from [get_auth_header], value or exception. *)
Theorem get_auth_header_forgets_the_separator :
  forall self self' : JiraAPI,
    jira_username self ++ jira_password self
    = jira_username self' ++ jira_password self' ->
    get_auth_header self = get_auth_header self'.
Proof.
  intros self self' H. unfold get_auth_header, Base64.b64decode.
  rewrite !a2b_base64_skips_colon. now rewrite H.
Qed.

Lemma emit_none (b : N) (r : option string) :
  Base64.emit b r = None <-> r = None.
Proof. destruct r; simpl; split; congruence. Qed.

Lemma pad_free_app (a b : string) :
  pad_free (a ++ b) = pad_free a && pad_free b.
Proof.
  induction a as [| c a IH]; simpl; [reflexivity |].
  now rewrite IH, andb_assoc.
Qed.

Lemma digits_app (a b : string) : digits (a ++ b) = (digits a + digits b)%nat.
Proof.
  induction a as [| c a IH]; simpl; [reflexivity |].
  destruct (Base64.table_a2b_base64 c); rewrite IH; reflexivity.
Qed.

(** Without pad characters the decoder fails exactly when the digits do
    not fill the last group of four. *)
Lemma a2b_base64_pad_free (s : string) :
  pad_free s = true ->
  forall quad_pos leftchar pads : N,
    (quad_pos < 4)%N ->
    (Base64.a2b_base64 s quad_pos leftchar pads = None
     <-> ((N.to_nat quad_pos + digits s) mod 4 <> 0)%nat).
Proof.
  induction s as [| c s IH]; intros Hp quad_pos leftchar pads Hq.
  - cbn [Base64.a2b_base64 digits]. rewrite Nat.add_0_r.
    assert (Hc : quad_pos = 0%N \/ quad_pos = 1%N \/ quad_pos = 2%N \/ quad_pos = 3%N)
      by lia.
    destruct Hc as [-> | [-> | [-> | ->]]]; cbn; split; intros H;
      try discriminate; try congruence; try lia.
  - cbn [pad_free] in Hp. apply andb_prop in Hp. destruct Hp as [Hc Hp].
    apply negb_true_iff in Hc.
    cbn [Base64.a2b_base64 digits]. rewrite Hc.
    destruct (Base64.table_a2b_base64 c) as [v |].
    + assert (Hcases : quad_pos = 0%N \/ quad_pos = 1%N \/ quad_pos = 2%N
                       \/ quad_pos = 3%N) by lia.
      destruct Hcases as [-> | [-> | [-> | ->]]]; cbv iota;
        rewrite ?emit_none, (IH Hp) by lia.
      * change (N.to_nat 1) with 1%nat. change (N.to_nat 0) with 0%nat.
        now rewrite Nat.add_succ_r.
      * change (N.to_nat 2) with 2%nat. change (N.to_nat 1) with 1%nat.
        now rewrite Nat.add_succ_r.
      * change (N.to_nat 3) with 3%nat. change (N.to_nat 2) with 2%nat.
        now rewrite Nat.add_succ_r.
      * change (N.to_nat 3) with 3%nat. change (N.to_nat 0) with 0%nat.
        rewrite Nat.add_succ_r.
        replace (S (3 + digits s)) with (digits s + 1 * 4)%nat by lia.
        now rewrite Nat.Div0.mod_add.
    + apply (IH Hp). exact Hq.
Qed.

(** X13. For credentials without the character =, [get_auth_header]
    raises binascii.Error exactly when the number of base64 digits
    (letters, digits, + and /) in username and password together is not a
    multiple of four. *)
Theorem get_auth_header_needs_digits_in_fours :
  forall self : JiraAPI,
    pad_free (jira_username self) = true ->
    pad_free (jira_password self) = true ->
    (get_auth_header self = Raise BinasciiError
     <-> ((digits (jira_username self) + digits (jira_password self)) mod 4
          <> 0)%nat).
Proof.
  intros self Hu Hp.
  assert (Hfree : pad_free (jira_username self ++ jira_password self) = true)
    by (rewrite pad_free_app, Hu, Hp; reflexivity).
  pose proof (a2b_base64_pad_free _ Hfree 0%N 0%N 0%N ltac:(lia)) as H.
  rewrite digits_app in H. change (N.to_nat 0) with 0%nat in H.
  rewrite Nat.add_0_l in H. rewrite <- H.
  unfold get_auth_header, Base64.b64decode.
  rewrite a2b_base64_skips_colon.
  destruct (Base64.a2b_base64 _ 0 0 0) as [bs |].
  - unfold Utf8.decode. destruct (Utf8.well_formed bs); split; discriminate.
  - split; reflexivity.
Qed.

(* ------------------------------------------------------------------ *)
(** ** What quote makes of the query                                   *)
(* ------------------------------------------------------------------ *)

Lemma chars_app (a b : string) : chars (a ++ b) = (chars a ++ chars b)%list.
Proof. induction a as [| c a IH]; simpl; [reflexivity | now rewrite IH]. Qed.

Lemma length_app_string (a b : string) :
  String.length (a ++ b) = (String.length a + String.length b)%nat.
Proof. induction a as [| c a IH]; simpl; [reflexivity | now rewrite IH]. Qed.

Lemma append_cancel_l (s x y : string) : s ++ x = s ++ y -> x = y.
Proof.
  induction s as [| c s IH]; simpl; intros H; [exact H |].
  injection H as H. auto.
Qed.

Lemma append_cancel_r (s : string) :
  forall x y : string, x ++ s = y ++ s -> x = y.
Proof.
  induction x as [| c x IH]; intros [| d y] H; simpl in H.
  - reflexivity.
  - apply (f_equal String.length) in H. simpl in H.
    rewrite length_app_string in H. lia.
  - apply (f_equal String.length) in H. simpl in H.
    rewrite length_app_string in H. lia.
  - injection H as -> H. f_equal. auto.
Qed.

(** The characters that can occur in a quoted query. *)
Lemma quoter_alphabet (c : ascii) :
  forallb (fun o => UrllibParse.always_safe o || UrllibParse.mem o structural
                    || Ascii.eqb o "%"%char)
          (chars (UrllibParse.quoter structural c)) = true.
Proof. destruct c as [[] [] [] [] [] [] [] []]; reflexivity. Qed.

(** X14. Whatever bytes the query holds, its quoted form in the search
    pattern is made of letters, digits, the characters _ . - ~ / ? : = , &
    and the percent sign only; it holds no space and no byte above 127. *)
Theorem quote_output_alphabet :
  forall (q : string) (o : ascii),
    In o (chars (UrllibParse.quote q structural)) ->
    (UrllibParse.always_safe o || UrllibParse.mem o structural
     || Ascii.eqb o "%"%char = true)
    /\ o <> " "%char
    /\ (N_of_ascii o < 128)%N.
Proof.
  intros q o Hin.
  assert (H : UrllibParse.always_safe o || UrllibParse.mem o structural
              || Ascii.eqb o "%"%char = true).
  { induction q as [| c q IH]; [contradiction |].
    cbn [UrllibParse.quote] in Hin. rewrite chars_app in Hin.
    apply in_app_or in Hin. destruct Hin as [Hin | Hin]; [| auto].
    pose proof (quoter_alphabet c) as Hc.
    rewrite forallb_forall in Hc. auto. }
  split; [exact H |].
  clear Hin. revert H.
  destruct o as [[] [] [] [] [] [] [] []]; cbn; intros H;
    try discriminate; split; try discriminate; lia.
Qed.

(** A quoted byte tells which byte it was. *)
Lemma percent_inv (c : ascii) :
  ascii_of_N
    (16 * hex_value (UrllibParse.hex_digit (N.shiftr (N_of_ascii c) 4))
     + hex_value (UrllibParse.hex_digit (N.land (N_of_ascii c) 15)))
  = c.
Proof. destruct c as [[] [] [] [] [] [] [] []]; reflexivity. Qed.

Lemma quoter_step_inj (c d : ascii) (x y : string) :
  UrllibParse.quoter structural c ++ x = UrllibParse.quoter structural d ++ y ->
  c = d /\ x = y.
Proof.
  unfold UrllibParse.quoter.
  destruct (UrllibParse.always_safe c || UrllibParse.mem c structural) eqn:Ec;
    destruct (UrllibParse.always_safe d || UrllibParse.mem d structural) eqn:Ed;
    unfold UrllibParse.percent; cbn [append]; intros H.
  - injection H as -> ->. auto.
  - injection H as Hc _. subst c. discriminate.
  - injection H as Hd _. subst d. discriminate.
  - injection H as H1 H2 Hxy. split; [| exact Hxy].
    assert (E : forall u v u' v' : ascii,
               u = u' -> v = v' ->
               ascii_of_N (16 * hex_value u + hex_value v)
               = ascii_of_N (16 * hex_value u' + hex_value v'))
      by (intros; subst; reflexivity).
    rewrite <- (percent_inv c), <- (percent_inv d).
    apply E; assumption.
Qed.

Lemma quote_inj (a : string) :
  forall b : string,
    UrllibParse.quote a structural = UrllibParse.quote b structural -> a = b.
Proof.
  induction a as [| c a IH]; intros [| d b] H; cbn [UrllibParse.quote] in H.
  - reflexivity.
  - exfalso. unfold UrllibParse.quoter, UrllibParse.percent in H.
    destruct (UrllibParse.always_safe d || UrllibParse.mem d structural);
      discriminate.
  - exfalso. unfold UrllibParse.quoter, UrllibParse.percent in H.
    destruct (UrllibParse.always_safe c || UrllibParse.mem c structural);
      discriminate.
  - apply quoter_step_inj in H. destruct H as [-> H]. f_equal. auto.
Qed.

(** X15. Quoting loses nothing: for a given client, expansion and field
    selection, two queries that give the same search pattern are the same
    query. *)
Theorem search_pattern_tells_the_query :
  forall (self : JiraAPI) (q q' expand fields : string),
    search_pattern self q expand fields = search_pattern self q' expand fields ->
    q = q'.
Proof.
  intros self q q' expand fields H. unfold search_pattern in H.
  apply append_cancel_l in H. apply append_cancel_r in H.
  now apply quote_inj.
Qed.

(* ------------------------------------------------------------------ *)
(** ** What select makes of the body of a response                     *)
(* ------------------------------------------------------------------ *)

Lemma page_entries_seq (srv : nat -> Request -> reply) (g : nat -> Request)
      (k : nat) :
  forall n start : nat,
    page_entries srv (k + start) (map g (seq start n))
    = map (fun i => page_entry (srv (k + i)%nat (g i))) (seq start n).
Proof.
  induction n as [| n IH]; intros start; cbn [seq map page_entries].
  - reflexivity.
  - f_equal. rewrite <- IH. f_equal. lia.
Qed.

(** X16. For a response with status 200 and an integer total, the list
    that the page stage of [select] returns has ceil(total / page_size)
    elements (none for a total of 0 or less) and is in the order of the
    offsets: element i is the entry of the page at i * page_size, the
    reply to the i-th request sent from there on. *)
Theorem select_results_in_offset_order :
  forall (self : JiraAPI) (pattern auth : string) (w : World)
         (resp : Response) (body issues : json) (total : Z),
    0 < max_results self ->
    get_auth_header self = Ret auth ->
    status resp = 200 ->
    json_body resp = Some body ->
    dict_get body "total" (JInt 0) = Ret issues ->
    as_int issues = Ret total ->
    let n := Z.to_nat ((total + max_results self - 1) / max_results self) in
    outcome (select_pages self ClientSession pattern (TheResponse resp)) w
    = Ret (map (fun i =>
                  page_entry
                    (server w (List.length (issued w) + i)%nat
                       (page_request self auth pattern
                          (Z.of_nat i * max_results self))))
               (seq 0 n)).
Proof.
  intros self pattern auth w resp body issues total
         Hp Hh Hst Hbody Hget Hint n.
  assert (Hrange : range 0 total (max_results self)
                   = Ret (map (fun k => Z.of_nat k * max_results self) (seq 0 n))).
  { unfold range.
    assert (E0 : (max_results self =? 0) = false) by (apply Z.eqb_neq; lia).
    assert (E1 : (0 <? max_results self) = true) by (apply Z.ltb_lt; lia).
    rewrite E0, E1. rewrite Z.sub_0_r. reflexivity. }
  destruct (select_pages_run self auth Hh pattern w resp body issues total _
              Hst Hbody Hget Hint Hrange) as [lg E].
  unfold outcome. rewrite E. cbn [fst]. f_equal.
  rewrite map_map.
  rewrite <- (Nat.add_0_r (List.length (issued w))) at 1.
  apply page_entries_seq.
Qed.

(** The page stage of [select] on a response with status 200 and a
    body. *)
Lemma select_pages_after_body (self : JiraAPI) (session : Session)
      (pattern : string) (w : World) (resp : Response) (body : json) :
  status resp = 200 ->
  json_body resp = Some body ->
  select_pages self session pattern (TheResponse resp) w
  = match dict_get body "total" (JInt 0) with
    | Ret issues =>
        match as_int issues with
        | Ret stop =>
            match range 0 stop (max_results self) with
            | Ret starts =>
                match gather (map (fun start => fetch self session pattern start)
                                  starts)
                             (logged w INFO (MsgFound issues)) with
                | (Ret results, w2) => (Ret results, w2)
                | (Raise e, w2) => (Raise e, w2)
                | (Exit c, w2) => (Exit c, w2)
                end
            | Raise e => (Raise e, logged w INFO (MsgFound issues))
            | Exit c => (Exit c, logged w INFO (MsgFound issues))
            end
        | Raise e => (Raise e, logged w INFO (MsgFound issues))
        | Exit c => (Exit c, logged w INFO (MsgFound issues))
        end
    | Raise e => (Raise e, w)
    | Exit c => (Exit c, w)
    end.
Proof.
  intros Hst Hbody.
  unfold select_pages, get_status. unfold bind at 1. unfold ret at 1.
  rewrite Hst. simpl (200 =? 200). cbv iota.
  unfold read_json. rewrite Hbody.
  unfold bind, ret, lift, logger, logged.
  destruct (dict_get body "total" (JInt 0)) as [issues | e | c0]; try reflexivity.
  destruct (as_int issues) as [stop | e | c0]; try reflexivity.
  destruct (range 0 stop (max_results self)) as [starts | e | c0]; try reflexivity.
  destruct (gather _ _) as [[results | e | c0] w2]; reflexivity.
Qed.

(** X17. A response with status 200 but without a usable total makes the
    page stage of [select] raise, and no page is requested: the exception
    of [response.json()] when the body cannot be read as JSON
    (ContentTypeError for a wrong Content-Type, JSONDecodeError for a
    malformed body), AttributeError when the body is not an object (the
    None of an empty body included), TypeError when its total is neither
    an integer nor a boolean. *)
Theorem select_malformed_probe_body :
  forall (self : JiraAPI) (session : Session) (pattern : string) (w : World)
         (resp : Response),
    status resp = 200 ->
    (json_body resp = None ->
     outcome (select_pages self session pattern (TheResponse resp)) w
     = Raise (json_error resp)
     /\ issued (after (select_pages self session pattern (TheResponse resp)) w)
        = issued w)
    /\ (forall body : json,
           json_body resp = Some body ->
           (forall entries, body <> JDict entries) ->
           outcome (select_pages self session pattern (TheResponse resp)) w
           = Raise AttributeError
           /\ issued (after (select_pages self session pattern (TheResponse resp)) w)
              = issued w)
    /\ (forall (entries : list (string * json)) (v : json),
           json_body resp = Some (JDict entries) ->
           lookup "total" entries = Some v ->
           (forall n, v <> JInt n) ->
           (forall b, v <> JBool b) ->
           outcome (select_pages self session pattern (TheResponse resp)) w
           = Raise TypeError
           /\ issued (after (select_pages self session pattern (TheResponse resp)) w)
              = issued w).
Proof.
  intros self session pattern w resp Hst.
  split; [| split].
  - intros Hbody.
    assert (E : select_pages self session pattern (TheResponse resp) w
                = (Raise (json_error resp), w)).
    { unfold select_pages, get_status. unfold bind at 1. unfold ret at 1.
      rewrite Hst. simpl (200 =? 200). cbv iota.
      unfold read_json. rewrite Hbody. reflexivity. }
    unfold outcome, after. rewrite E. auto.
  - intros body Hbody Hnot. unfold outcome, after.
    rewrite (select_pages_after_body self session pattern w resp body Hst Hbody).
    destruct body; cbn [dict_get fst snd]; auto.
    exfalso. eapply Hnot. reflexivity.
  - intros entries v Hbody Hlook Hni Hnb. unfold outcome, after.
    rewrite (select_pages_after_body self session pattern w resp _ Hst Hbody).
    cbn [dict_get]. rewrite Hlook.
    destruct v; cbn [as_int fst snd logged issued]; auto.
    + exfalso. eapply Hnb. reflexivity.
    + exfalso. eapply Hni. reflexivity.
Qed.

(** X18. A response with status 200 and an object whose total is
    missing, zero or negative makes the page stage of [select] return the
    empty list without requesting a page. *)
Theorem select_empty_result :
  forall (self : JiraAPI) (session : Session) (pattern : string) (w : World)
         (resp : Response) (entries : list (string * json)),
    0 < max_results self ->
    status resp = 200 ->
    json_body resp = Some (JDict entries) ->
    (lookup "total" entries = None
     \/ exists t : Z, lookup "total" entries = Some (JInt t) /\ t <= 0) ->
    outcome (select_pages self session pattern (TheResponse resp)) w = Ret []
    /\ issued (after (select_pages self session pattern (TheResponse resp)) w)
       = issued w.
Proof.
  intros self session pattern w resp entries Hp Hst Hbody Htotal.
  assert (Hget : exists t : Z,
             dict_get (JDict entries) "total" (JInt 0) = Ret (JInt t) /\ t <= 0).
  { destruct Htotal as [Hnone | (t & Hsome & Ht)]; cbn [dict_get].
    - exists 0. rewrite Hnone. split; [reflexivity | lia].
    - exists t. rewrite Hsome. auto. }
  destruct Hget as (t & Hget & Ht).
  unfold outcome, after.
  rewrite (select_pages_after_body self session pattern w resp _ Hst Hbody).
  rewrite Hget. cbn [as_int]. unfold range.
  assert (E0 : (max_results self =? 0) = false) by (apply Z.eqb_neq; lia).
  assert (E1 : (0 <? max_results self) = true) by (apply Z.ltb_lt; lia).
  rewrite E0, E1.
  assert (Hc : Z.to_nat ((t - 0 + max_results self - 1) / max_results self) = 0%nat).
  { assert ((t - 0 + max_results self - 1) / max_results self < 1).
    { apply Z.div_lt_upper_bound; lia. }
    lia. }
  rewrite Hc. cbn [seq map gather]. unfold ret.
  cbn [fst snd logged issued]. auto.
Qed.

(* ------------------------------------------------------------------ *)
(** ** The statements at sample inputs                                 *)
(* ------------------------------------------------------------------ *)

Lemma handle_response_exits_from_400_witness :
  outcome (handle_response (Some (response 404 "Not Found" None)))
          (fresh (srv_status 404 "Not Found"))
  = Exit (ExitCode 1)
  /\ issued (after (handle_response (Some (response 404 "Not Found" None)))
                   (fresh (srv_status 404 "Not Found"))) = []
  /\ log (after (handle_response (Some (response 404 "Not Found" None)))
                (fresh (srv_status 404 "Not Found")))
     = [(ERROR, MsgResourceNotFound "https://jira.example")].
Proof.
  apply (handle_response_exits_from_400 (response 404 "Not Found" None)
           (fresh (srv_status 404 "Not Found"))).
  simpl. lia.
Defined.





(* ------------------------------------------------------------------ *)
(** ** The further statements at sample inputs                         *)
(* ------------------------------------------------------------------ *)

Lemma authenticate_guard_sends_nothing_witness :
  outcome (authenticate (init "https://jira.example" "Nick" "secret" 3))
          (fresh srv_45) = Ret false
  /\ issued (after (authenticate (init "https://jira.example" "Nick" "secret" 3))
                   (fresh srv_45)) = issued (fresh srv_45)
  /\ log (after (authenticate (init "https://jira.example" "Nick" "secret" 3))
                (fresh srv_45))
     = (log (fresh srv_45) ++ [(ERROR, MsgCredentialsMissing)])%list.
Proof.
  apply (authenticate_guard_sends_nothing
           (init "https://jira.example" "Nick" "secret" 3) (fresh srv_45)).
  right. simpl. discriminate.
Defined.

Lemma select_raises_before_sending_witness :
  outcome (select nick (Some sample_jql) "changelog" "*all") (fresh srv_45)
  = Raise match get_auth_header nick with
          | Raise e => e
          | _ => TypeError
          end
  /\ issued (after (select nick (Some sample_jql) "changelog" "*all")
                   (fresh srv_45))
     = issued (fresh srv_45)
  /\ log (after (select nick (Some sample_jql) "changelog" "*all") (fresh srv_45))
     = (log (fresh srv_45)
        ++ [(INFO, MsgURL (jira_host nick ++ "/rest/api/2/"
                           ++ search_pattern nick sample_jql "changelog" "*all"))])%list.
Proof.
  apply (select_raises_before_sending nick sample_jql "changelog" "*all"
           (fresh srv_45)).
  discriminate.
Defined.

Lemma header_failure_sends_nothing_witness :
  (outcome (select (init "https://jira.example" "admin" "secret" 3)
                   (Some sample_jql) "changelog" "*all") (fresh srv_45)
   = Raise BinasciiError
   /\ issued (after (select (init "https://jira.example" "admin" "secret" 3)
                            (Some sample_jql) "changelog" "*all") (fresh srv_45))
      = issued (fresh srv_45))
  /\ (outcome (authenticate (init "https://jira.example" "admin" "secret" 3))
              (fresh srv_45) = Ret false
      /\ issued (after (authenticate (init "https://jira.example" "admin" "secret" 3))
                       (fresh srv_45))
         = issued (fresh srv_45)).
Proof.
  apply (header_failure_sends_nothing
           (init "https://jira.example" "admin" "secret" 3) BinasciiError
           sample_jql "changelog" "*all" (fresh srv_45)).
  - reflexivity.
  - discriminate.
Defined.

Lemma fetch_header_failure_raises_unbound_url_witness :
  outcome (fetch (init "https://jira.example" "admin" "secret" 3) ClientSession
                 sample_pattern 0) (fresh srv_45)
  = Raise (UnboundLocalError "url")
  /\ issued (after (fetch (init "https://jira.example" "admin" "secret" 3)
                          ClientSession sample_pattern 0) (fresh srv_45))
     = issued (fresh srv_45).
Proof.
  apply (fetch_header_failure_raises_unbound_url
           (init "https://jira.example" "admin" "secret" 3) BinasciiError
           ClientSession sample_pattern 0 (fresh srv_45)).
  reflexivity.
Defined.

Lemma fetch_always_returns_witness :
  exists (page : json) (m : nat),
    outcome (fetch nick (RetryClient ExponentialRetry) sample_pattern 20)
            (fresh srv_45) = Ret page
    /\ (1 <= m)%nat
    /\ issued (after (fetch nick (RetryClient ExponentialRetry)
                            sample_pattern 20) (fresh srv_45))
       = (issued (fresh srv_45)
          ++ repeat (page_request nick "6'$" sample_pattern 20) m)%list.
Proof.
  apply (fetch_always_returns nick "6'$" (RetryClient ExponentialRetry)
           sample_pattern 20 (fresh srv_45)).
  reflexivity.
Defined.

Lemma get_auth_header_forgets_the_separator_witness :
  get_auth_header (init "https://jira.example" "Ni" "ck" 3) = get_auth_header nick.
Proof.
  apply (get_auth_header_forgets_the_separator
           (init "https://jira.example" "Ni" "ck" 3) nick).
  reflexivity.
Defined.

Lemma get_auth_header_needs_digits_in_fours_witness :
  get_auth_header (init "https://jira.example" "admin" "secret" 3)
  = Raise BinasciiError
  <-> ((digits (jira_username (init "https://jira.example" "admin" "secret" 3))
        + digits (jira_password (init "https://jira.example" "admin" "secret" 3)))
       mod 4 <> 0)%nat.
Proof.
  apply (get_auth_header_needs_digits_in_fours
           (init "https://jira.example" "admin" "secret" 3)).
  - reflexivity.
  - reflexivity.
Defined.

Lemma quote_output_alphabet_witness :
  (UrllibParse.always_safe "%" || UrllibParse.mem "%" structural
   || Ascii.eqb "%" "%" = true)
  /\ "%"%char <> " "%char
  /\ (N_of_ascii "%" < 128)%N.
Proof.
  apply (quote_output_alphabet sample_jql "%"%char).
  vm_compute. right. right. right. right. right. right. right. left.
  reflexivity.
Defined.

Lemma search_pattern_tells_the_query_witness : sample_jql = sample_jql.
Proof.
  apply (search_pattern_tells_the_query nick sample_jql sample_jql
           "changelog" "*all").
  reflexivity.
Defined.

Lemma select_results_in_offset_order_witness :
  outcome (select_pages nick ClientSession sample_pattern
             (TheResponse (response 200 "OK" (Some (JDict [("total", JInt 45)])))))
          (fresh srv_45)
  = Ret (map (fun i =>
                page_entry
                  (server (fresh srv_45)
                          (List.length (issued (fresh srv_45)) + i)%nat
                          (page_request nick "6'$" sample_pattern
                             (Z.of_nat i * max_results nick))))
             (seq 0 (Z.to_nat ((45 + max_results nick - 1) / max_results nick)))).
Proof.
  apply (select_results_in_offset_order nick sample_pattern "6'$" (fresh srv_45)
           (response 200 "OK" (Some (JDict [("total", JInt 45)])))
           (JDict [("total", JInt 45)]) (JInt 45) 45).
  - simpl. lia.
  - reflexivity.
  - reflexivity.
  - reflexivity.
  - reflexivity.
  - reflexivity.
Defined.

Lemma select_malformed_probe_body_witness :
  outcome (select_pages nick ClientSession sample_pattern
             (TheResponse (response 200 "OK" None)))
          (fresh (srv_status 200 "OK"))
  = Raise (json_error (response 200 "OK" None))
  /\ issued (after (select_pages nick ClientSession sample_pattern
                      (TheResponse (response 200 "OK" None)))
                   (fresh (srv_status 200 "OK")))
     = issued (fresh (srv_status 200 "OK")).
Proof.
  apply (proj1 (select_malformed_probe_body nick ClientSession sample_pattern
                  (fresh (srv_status 200 "OK"))
                  (response 200 "OK" None) eq_refl)).
  reflexivity.
Defined.

Lemma select_empty_result_witness :
  outcome (select_pages nick ClientSession sample_pattern
             (TheResponse (response 200 "OK" (Some (JDict [("total", JInt 0)])))))
          (fresh srv_45)
  = Ret []
  /\ issued (after (select_pages nick ClientSession sample_pattern
                      (TheResponse (response 200 "OK"
                                      (Some (JDict [("total", JInt 0)])))))
                   (fresh srv_45))
     = issued (fresh srv_45).
Proof.
  apply (select_empty_result nick ClientSession sample_pattern (fresh srv_45)
           (response 200 "OK" (Some (JDict [("total", JInt 0)])))
           [("total", JInt 0)]).
  - simpl. lia.
  - reflexivity.
  - reflexivity.
  - right. exists 0. split; [reflexivity | lia].
Defined.
